(** * top_shelf.py: the Identity monad, its operations and its equality

    A shallow embedding of [src/top_shelf.py].  Python objects live in an
    explicit store, exceptions are results, and the process-wide random
    generator used by [Identity.__eq__] is part of the state. *)

From Stdlib Require Import ZArith String Bool Lia.
From Stdlib Require Import Floats.SpecFloat.
From stdpp Require Import base list.

Open Scope Z_scope.

Module top_shelf.

(** ** Python values *)

(** Python's [float] is an IEEE 754 binary64 number; [spec_float] with
    precision 53 and maximal exponent 1024 is its specification. *)
Definition float : Type := spec_float.
Definition prec : Z := 53.
Definition emax : Z := 1024.

(** The values that are not functions and not containers.  The source
    declares [Scalar = Union[AnyStr, int, bool]]; its tests also draw floats,
    and [_modify] looks for floats, complex numbers and [None]. *)
Inductive Scalar : Type :=
  | SInt (n : Z)
  | SBool (b : bool)
  | SStr (s : string)
  | SBytes (s : string)
  | SFloat (x : float)
  | SComplex (re im : float)
  | SNone.

(** The members of the declared union [Scalar = Union[AnyStr, int, bool]]. *)
Definition is_Scalar (s : Scalar) : bool :=
  match s with
  | SInt _ | SBool _ | SStr _ | SBytes _ => true
  | SFloat _ | SComplex _ _ | SNone => false
  end.

(** Addresses of the container instances in the store. *)
Definition loc := nat.

(** A value that is not callable: a scalar or a reference to a container. *)
Inductive Atom : Type :=
  | AScalar (s : Scalar)
  | ARef (l : loc).

Inductive exn : Type :=
  | TypeError
  | AttributeError
  | OverflowError
  | ValueError.

(** The result of a call that touches no state. *)
Inductive result (A : Type) : Type :=
  | Ok (a : A)
  | Err (e : exn).
Arguments Ok {A} a.
Arguments Err {A} e.

Definition result_bind {A B} (r : result A) (k : A -> result B) : result B :=
  match r with
  | Ok a => k a
  | Err e => Err e
  end.

(** A unary function as the source types it ([RegularFunction], the
    [Callable] member of [Identity.value]): from a non-callable argument to a
    non-callable result, or an exception. *)
Definition pyfun := Atom -> result Atom.

(** The payload of a container: [value: Union[Scalar, Callable]], and also a
    container when one is wrapped again. *)
Inductive Value : Type :=
  | VAtom (a : Atom)
  | VFun (f : pyfun).

Definition VScalar (s : Scalar) : Value := VAtom (AScalar s).
Definition VRef (l : loc) : Value := VAtom (ARef l).
Definition VInt (n : Z) : Value := VScalar (SInt n).
Definition VNone : Value := VScalar SNone.

(** ** The state and the computations *)

(** [heap] holds the [value] field of every [Identity] instance made so far,
    at the instance's address; the source never assigns to a field after the
    constructor.  [entropy] is the sequence of numbers the random generator
    will give and [drawn] counts those already used. *)
Record World : Type := mkWorld {
  heap : list Value;
  entropy : nat -> Z;
  drawn : nat
}.

Inductive outcome (A : Type) : Type :=
  | Ret (a : A) (w : World)
  | Raise (e : exn)
  | Unmodelled.
Arguments Ret {A} a w.
Arguments Raise {A} e.
Arguments Unmodelled {A}.

(** A Python computation.  [Unmodelled] is no Python behaviour: it marks what
    this model leaves out (an address that was never allocated, the identity
    of a function object, a comparison nested deeper than the fuel). *)
Definition Py (A : Type) : Type := World -> outcome A.

Definition ret {A} (a : A) : Py A := fun w => Ret a w.
Definition raise {A} (e : exn) : Py A := fun _ => Raise e.
Definition unmodelled {A} : Py A := fun _ => Unmodelled.

Definition then_ {A B} (c : Py A) (k : A -> Py B) : Py B :=
  fun w =>
    match c w with
    | Ret a w' => k a w'
    | Raise e => Raise e
    | Unmodelled => Unmodelled
    end.

Definition lift {A} (r : result A) : Py A :=
  match r with
  | Ok a => ret a
  | Err e => raise e
  end.

Declare Scope py_scope.
Delimit Scope py_scope with py.
Notation "'let*' x := c 'in' k" := (then_ c (fun x => k))
  (at level 10, x name, c at level 200, k at level 200) : py_scope.
Notation "'let?' x := r 'in' k" := (result_bind r (fun x => k))
  (at level 10, x name, r at level 200, k at level 200) : py_scope.
Open Scope py_scope.

(** ** Python primitives the source uses *)

(** [callable(v)]: functions are, scalars and [Identity] instances are not. *)
Definition callable (v : Value) : bool :=
  match v with
  | VFun _ => true
  | VAtom _ => false
  end.

(** [f(x)]: calling something that is not callable is a [TypeError]. *)
Definition call (f : Value) (x : Atom) : result Atom :=
  match f with
  | VFun g => g x
  | VAtom _ => Err TypeError
  end.

(** [o.value]: the field of a container; no other value has that attribute. *)
Definition getattr_value (o : Value) : Py Value :=
  match o with
  | VAtom (ARef l) =>
      fun w => match heap w !! l with
               | Some v => Ret v w
               | None => Unmodelled
               end
  | VAtom (AScalar _) | VFun _ => raise AttributeError
  end.

(** The world after one number was drawn from the generator. *)
Definition tick (w : World) : World :=
  mkWorld (heap w) (entropy w) (S (drawn w)).

(** [random.randrange(start, stop)]. *)
Definition randrange (start stop : Z) : Py Z :=
  fun w =>
    if stop <=? start then Raise ValueError
    else Ret (start + entropy w (drawn w) mod (stop - start)) (tick w).

(** *** Numbers *)

(** [float(n)] for an int: round to nearest even; an int beyond the range of
    a double is an [OverflowError]. *)
Definition float_of_int (n : Z) : result float :=
  match binary_normalize prec emax n 0 false with
  | S754_infinity _ => Err OverflowError
  | x => Ok x
  end.

Definition is_nan (x : float) : bool :=
  match x with
  | S754_nan => true
  | _ => false
  end.

(** [math.isnan(x)]: the argument is converted as [float(x)] is. *)
Definition math_isnan (x : Scalar) : result bool :=
  match x with
  | SFloat f => Ok (is_nan f)
  | SInt n => let? _ := float_of_int n in Ok false
  | SBool b => Ok false
  | SComplex _ _ | SStr _ | SBytes _ | SNone => Err TypeError
  end.

(** [isinstance(v, numbers.Complex)]: the numeric tower registers [complex],
    [float] and [int] (hence [bool]) under [Complex]. *)
Definition isinstance_Complex (v : Value) : bool :=
  match v with
  | VAtom (AScalar (SInt _ | SBool _ | SFloat _ | SComplex _ _)) => true
  | _ => false
  end.

(** [isinstance(v, numbers.Number)]: among the values modelled, the same. *)
Definition isinstance_Number (v : Value) : bool := isinstance_Complex v.

(** [x.real] and [x.imag] of a number. *)
Definition attr_real (s : Scalar) : result Scalar :=
  match s with
  | SInt n => Ok (SInt n)
  | SBool b => Ok (SInt (Z.b2z b))
  | SFloat x => Ok (SFloat x)
  | SComplex re _ => Ok (SFloat re)
  | SStr _ | SBytes _ | SNone => Err AttributeError
  end.

Definition attr_imag (s : Scalar) : result Scalar :=
  match s with
  | SInt _ | SBool _ => Ok (SInt 0)
  | SFloat _ => Ok (SFloat (S754_zero false))
  | SComplex _ im => Ok (SFloat im)
  | SStr _ | SBytes _ | SNone => Err AttributeError
  end.

(** *** Equality of scalars *)

(** A real number of Python: an int or a float. *)
Inductive real : Type :=
  | RInt (n : Z)
  | RFloat (x : float).

(** [n == x] for an int and a float compares the exact values. *)
Definition int_eq_float (n : Z) (x : float) : bool :=
  match x with
  | S754_zero _ => n =? 0
  | S754_finite s m e =>
      if 0 <=? e then n =? cond_Zopp s (Zpos m) * 2 ^ e
      else n * 2 ^ (- e) =? cond_Zopp s (Zpos m)
  | S754_infinity _ | S754_nan => false
  end.

Definition real_eq (a b : real) : bool :=
  match a, b with
  | RInt n, RInt m => n =? m
  | RInt n, RFloat x | RFloat x, RInt n => int_eq_float n x
  | RFloat x, RFloat y => SFeqb x y
  end.

(** A number as real part and imaginary part; the imaginary part of a real
    number is zero. *)
Definition numeric (s : Scalar) : option (real * float) :=
  match s with
  | SInt n => Some (RInt n, S754_zero false)
  | SBool b => Some (RInt (Z.b2z b), S754_zero false)
  | SFloat x => Some (RFloat x, S754_zero false)
  | SComplex re im => Some (RFloat re, im)
  | SStr _ | SBytes _ | SNone => None
  end.

(** [a == b] on scalars: numbers by value across [bool], [int], [float] and
    [complex] (so NaN differs from itself), text with text, bytes with bytes,
    [None] with [None]; everything else is unequal. *)
Definition scalar_eq (a b : Scalar) : bool :=
  match numeric a, numeric b with
  | Some (ra, ia), Some (rb, ib) => real_eq ra rb && SFeqb ia ib
  | Some _, None | None, Some _ => false
  | None, None =>
      match a, b with
      | SStr s, SStr t => String.eqb s t
      | SBytes s, SBytes t => String.eqb s t
      | SNone, SNone => true
      | _, _ => false
      end
  end.

(** [a == b] on any two values, given the [__eq__] of the containers.  An
    [Identity] on the left answers first; on the right it answers when the
    left operand's own comparison gives [NotImplemented], which is what
    scalars and functions do for a container.  A function equals only
    itself, so it differs from every scalar. *)
Definition py_eq_with (Identity_eq : loc -> Value -> Py bool)
    (a b : Value) : Py bool :=
  match a, b with
  | VAtom (AScalar x), VAtom (AScalar y) => ret (scalar_eq x y)
  | VAtom (ARef l), _ => Identity_eq l b
  | _, VAtom (ARef l) => Identity_eq l a
  | VFun _, VAtom (AScalar _) | VAtom (AScalar _), VFun _ => ret false
  | VFun _, VFun _ => unmodelled
  end.

(** ** The source *)

(** [identity], line 18. *)
Definition identity {A : Type} (x : A) : A := x.

(** [identity] as a Python function value. *)
Definition identity_fn : Value := VFun (fun x => Ok (identity x)).

(** The concrete subclasses of the abstract class [Monad], lines 22-38: the
    source has one. *)
Inductive MonadType : Type :=
  | Identity.

(** The world with one more container, whose field is [value]. *)
Definition stored (w : World) (value : Value) : World :=
  mkWorld (heap w ++ [value]) (entropy w) (drawn w).

(** [M(value)]: the constructor that [@dataclass] generates stores the field
    in a new instance. *)
Definition construct (M : MonadType) (value : Value) : Py loc :=
  fun w => Ret (length (heap w)) (stored w value).

(** [isinstance(value, cls)], with the address of the instance: every
    container in the store is an [Identity]. *)
Definition instance_of (value : Value) (cls : MonadType) : option loc :=
  match value with
  | VAtom (ARef l) => Some l
  | VAtom (AScalar _) | VFun _ => None
  end.

Definition isinstance (value : Value) (cls : MonadType) : bool :=
  match instance_of value cls with
  | Some _ => true
  | None => false
  end.

(** [unit], lines 41-45. *)
Definition unit (M : MonadType) (value : Value) : Py loc :=
  construct M value.

(** [Identity.unit], lines 77-79.  An instance passed in is returned as it
    is. *)
Definition Identity_unit (cls : MonadType) (value : Value) : Py loc :=
  match instance_of value cls with
  | None => unit cls value
  | Some l => ret l
  end.

(** [map], lines 48-54.  [monad.unit] is [Identity.unit] bound to the class
    of [monad].  The lambda reads [monad.value] when it is called; the field
    never changes, so the function read here is the one it calls. *)
Definition map (monad : loc) (function : Value) : Py loc :=
  let* v := getattr_value (VRef monad) in
  match v with
  | VAtom a =>
      let* r := lift (call function a) in
      Identity_unit Identity (VAtom r)
  | VFun _ =>
      Identity_unit Identity
        (VFun (fun x => let? y := call function x in call v y))
  end.

(** [apply], lines 57-61. *)
Definition apply (lifted_function lifted : loc) : Py loc :=
  let* f := getattr_value (VRef lifted_function) in
  map lifted f.

(** [bind], lines 64-66. *)
Definition bind (monad : loc) (function : Value -> Py loc) : Py loc :=
  let* v := getattr_value (VRef monad) in
  function v.

(** The methods of [Identity], lines 81-88. *)
Definition Identity_map (self : loc) (function : Value) : Py loc :=
  map self function.

Definition Identity_apply (self lifted : loc) : Py loc :=
  apply self lifted.

Definition Identity_bind (self : loc) (function : Value -> Py loc) : Py loc :=
  bind self function.

(** [Identity.__eq__], lines 90-96.  [other] is whatever stands on the other
    side of [==].  The payloads may be containers themselves, whose
    comparison comes back here: [fuel] bounds that nesting. *)
Fixpoint Identity___eq__ (fuel : nat) (self : loc) (other : Value)
    : Py bool :=
  match fuel with
  | O => unmodelled
  | S fuel' =>
      let* both :=
        (let* sv := getattr_value (VRef self) in
         if callable sv then
           let* ov := getattr_value other in ret (callable ov)
         else ret false) in
      if (both : bool) then
        let* i := randrange 0 100 in
        let* sv := getattr_value (VRef self) in
        let* a := lift (call sv (AScalar (SInt i))) in
        let* ov := getattr_value other in
        let* b := lift (call ov (AScalar (SInt i))) in
        py_eq_with (Identity___eq__ fuel') (VAtom a) (VAtom b)
      else
        let* sv := getattr_value (VRef self) in
        let* ov := getattr_value other in
        py_eq_with (Identity___eq__ fuel') sv ov
  end.

(** [a == b] for two values. *)
Definition py_eq (fuel : nat) (a b : Value) : Py bool :=
  py_eq_with (Identity___eq__ fuel) a b.

(** *** The determinizer *)

(** Whether two arguments are one object.  Scalars carry no identity here:
    equal representations stand for the same object. *)
Definition float_same (x y : float) : bool :=
  match x, y with
  | S754_zero s, S754_zero t => Bool.eqb s t
  | S754_infinity s, S754_infinity t => Bool.eqb s t
  | S754_nan, S754_nan => true
  | S754_finite s m e, S754_finite t n f =>
      Bool.eqb s t && Pos.eqb m n && (e =? f)
  | _, _ => false
  end.

Definition scalar_same (a b : Scalar) : bool :=
  match a, b with
  | SInt n, SInt m => n =? m
  | SBool b1, SBool b2 => Bool.eqb b1 b2
  | SStr s, SStr t => String.eqb s t
  | SBytes s, SBytes t => String.eqb s t
  | SFloat x, SFloat y => float_same x y
  | SComplex r1 i1, SComplex r2 i2 => float_same r1 r2 && float_same i1 i2
  | SNone, SNone => true
  | _, _ => false
  end.

(** [functools.lru_cache(maxsize=None)] around a function of one positional
    argument.  The key of an argument whose type is exactly [int] or [str] is
    the argument; any other argument is keyed by the tuple of arguments, whose
    comparison takes identical items as equal before it asks [==]. *)
Definition fasttype (x : Atom) : bool :=
  match x with
  | AScalar (SInt _) | AScalar (SStr _) => true
  | _ => false
  end.

(** [Identity] defines [__eq__] and no [__hash__]: its instances cannot be
    keys. *)
Definition hashable (x : Atom) : bool :=
  match x with
  | AScalar _ => true
  | ARef _ => false
  end.

Definition key_matches (x k : Atom) : bool :=
  match x, k with
  | AScalar a, AScalar b =>
      if fasttype x then fasttype k && scalar_eq a b
      else negb (fasttype k) && (scalar_same a b || scalar_eq a b)
  | _, _ => false
  end.

Definition lru_cache (A : Type) : Type := list (Atom * A).

Fixpoint cache_get {A} (cache : lru_cache A) (x : Atom) : option A :=
  match cache with
  | [] => None
  | (k, r) :: rest => if key_matches x k then Some r else cache_get rest x
  end.

(** A call of the wrapper that [lru_cache] returns: the cache it owns goes in
    and comes out. *)
Definition lru_cache_call {A} (user_function : Atom -> Py A)
    (cache : lru_cache A) (x : Atom) : Py (A * lru_cache A) :=
  if negb (hashable x) then raise TypeError
  else match cache_get cache x with
       | Some r => ret (r, cache)
       | None =>
           let* r := user_function x in
           ret (r, cache ++ [(x, r)])
       end.

(** [math.isnan(v.imag)], [math.isnan(v.real)] and [math.isnan(v)]. *)
Definition isnan_attr (attr : Scalar -> result Scalar) (v : Value)
    : result bool :=
  match v with
  | VAtom (AScalar s) => let? a := attr s in math_isnan a
  | VAtom (ARef _) | VFun _ => Err AttributeError
  end.

Definition isnan_value (v : Value) : result bool :=
  match v with
  | VAtom (AScalar s) => math_isnan s
  | VAtom (ARef _) | VFun _ => Err TypeError
  end.

(** The inner function [f] of [_modify], lines 260-270.  [function] may give
    another result each time it is called, so it runs in the state.
    [result.value] is read at each use and is the same value each time. *)
Definition _modify_f (function : Atom -> Py Atom) (pure : Value -> Py loc)
    (x : Atom) : Py loc :=
  let* r := function x in
  let* result := pure (VAtom r) in
  let* v := getattr_value (VRef result) in
  if isinstance_Complex v then
    let* nan :=
      (let* im := lift (isnan_attr attr_imag v) in
       if (im : bool) then ret true else lift (isnan_attr attr_real v)) in
    if (nan : bool) then pure VNone else ret result
  else
    let* nan :=
      (if isinstance_Number v then lift (isnan_value v) else ret false) in
    if (nan : bool) then pure VNone else ret result.

(** [_modify], lines 254-272: the function it returns, called with the cache
    that function owns. *)
Definition _modify (function : Atom -> Py Atom) (pure : Value -> Py loc)
    : lru_cache loc -> Atom -> Py (loc * lru_cache loc) :=
  lru_cache_call (_modify_f function pure).

(** [compose], lines 275-286. *)
Definition compose (f g : Value) : pyfun :=
  fun x => let? y := call g x in call f y.

(** ** Functions and worlds of the scenarios *)

Fixpoint str_repeat (s : string) (n : nat) : string :=
  match n with
  | O => EmptyString
  | S n' => String.append s (str_repeat s n')
  end.

Definition float_zero : float := S754_zero false.

(** [x + k] for an int literal [k].  Arithmetic with a [float] or a
    [complex] converts [k] first; an [Identity], text, bytes and [None] do not
    add to an int. *)
Definition py_add_int (x : Atom) (k : Z) : result Atom :=
  match x with
  | AScalar (SInt n) => Ok (AScalar (SInt (n + k)))
  | AScalar (SBool b) => Ok (AScalar (SInt (Z.b2z b + k)))
  | AScalar (SFloat f) =>
      let? kf := float_of_int k in
      Ok (AScalar (SFloat (SFadd prec emax f kf)))
  | AScalar (SComplex re im) =>
      let? kf := float_of_int k in
      Ok (AScalar (SComplex (SFadd prec emax re kf)
                            (SFadd prec emax im float_zero)))
  | AScalar (SStr _ | SBytes _ | SNone) | ARef _ => Err TypeError
  end.

(** [y * k] for an int literal [k]; text and bytes are repeated. *)
Definition py_mul_int (y : Atom) (k : Z) : result Atom :=
  match y with
  | AScalar (SInt n) => Ok (AScalar (SInt (n * k)))
  | AScalar (SBool b) => Ok (AScalar (SInt (Z.b2z b * k)))
  | AScalar (SFloat f) =>
      let? kf := float_of_int k in
      Ok (AScalar (SFloat (SFmul prec emax f kf)))
  | AScalar (SComplex re im) =>
      let? kf := float_of_int k in
      Ok (AScalar (SComplex
            (SFsub prec emax (SFmul prec emax re kf)
                             (SFmul prec emax im float_zero))
            (SFadd prec emax (SFmul prec emax re float_zero)
                             (SFmul prec emax im kf))))
  | AScalar (SStr s) => Ok (AScalar (SStr (str_repeat s (Z.to_nat k))))
  | AScalar (SBytes s) => Ok (AScalar (SBytes (str_repeat s (Z.to_nat k))))
  | AScalar SNone | ARef _ => Err TypeError
  end.

(** [lambda x: x + 1] and [lambda y: y * 2]. *)
Definition add_one : pyfun := fun x => py_add_int x 1.
Definition double : pyfun := fun y => py_mul_int y 2.

(** What the annotation [RegularFunction = Callable[[Scalar], Scalar]] says
    of a function: given a member of [Scalar] it returns one. *)
Definition RegularFunction (f : pyfun) : Prop :=
  forall s, is_Scalar s = true ->
    exists r, f (AScalar s) = Ok (AScalar r) /\ is_Scalar r = true.

(** A payload of the declared type [Union[Scalar, Callable]]. *)
Definition declared_payload (v : Value) : Prop :=
  match v with
  | VAtom (AScalar s) => is_Scalar s = true
  | VFun h => RegularFunction h
  | VAtom (ARef _) => False
  end.

(** A scalar without NaN in it: the scalars that the tests draw
    ([st.floats(allow_nan=False)]). *)
Definition nan_free (s : Scalar) : bool :=
  match s with
  | SFloat x => negb (is_nan x)
  | SComplex re im => negb (is_nan re) && negb (is_nan im)
  | SInt _ | SBool _ | SStr _ | SBytes _ | SNone => true
  end.

(** A payload that [__eq__] finds equal to itself: a scalar without NaN, or
    a function that returns such a scalar at every integer of [0, 100). *)
Definition self_equal_payload (v : Value) : Prop :=
  match v with
  | VAtom (AScalar s) => nan_free s = true
  | VFun h =>
      forall i, 0 <= i < 100 ->
        exists r, h (AScalar (SInt i)) = Ok (AScalar r) /\ nan_free r = true
  | VAtom (ARef _) => False
  end.

(** A process that has made no container yet; its generator will give
    1234, 1235, ... *)
Definition fresh_world : World :=
  mkWorld [] (fun k => 1234 + Z.of_nat k) 0.

(** A process whose store holds [Identity(5)], [Identity(lambda x: x + 1)],
    [Identity(None)] and [Identity(lambda y: y * 2)] at the addresses 0 to
    3. *)
Definition sample_world : World :=
  mkWorld [VInt 5; VFun add_one; VNone; VFun double]
          (fun k => 1234 + Z.of_nat k) 0.

(** The equality of section 4.3 of the specification, on the two payloads:
    two functions are compared at one integer drawn from [0, 100), anything
    else by [==]. *)
Definition spec_equality (fuel : nat) (va vb : Value) : Py bool :=
  match va, vb with
  | VFun f, VFun g =>
      let* i := randrange 0 100 in
      let* x := lift (f (AScalar (SInt i))) in
      let* y := lift (g (AScalar (SInt i))) in
      py_eq fuel (VAtom x) (VAtom y)
  | _, _ => py_eq fuel va vb
  end.

(** The first functor law as [test_map] asserts it, line 137:
    [map(monad, identity) == monad]. *)
Definition functor_identity_check (fuel : nat) (monad : loc) : Py bool :=
  let* mapped := map monad identity_fn in
  Identity___eq__ fuel mapped (VRef monad).

(** The same in method form, line 139. *)
Definition functor_identity_check_method (fuel : nat) (monad : loc)
    : Py bool :=
  let* mapped := Identity_map monad identity_fn in
  Identity___eq__ fuel mapped (VRef monad).

(** The homomorphism law, [apply(unit(f), unit(a)) == unit(f(a))], as
    [test_app] asserts it at line 226 with [monad.unit]. *)
Definition homomorphism_check (fuel : nat) (f : pyfun) (a : Scalar)
    : Py bool :=
  let* uf := Identity_unit Identity (VFun f) in
  let* ua := Identity_unit Identity (VScalar a) in
  let* lhs := apply uf ua in
  let* fa := lift (f (AScalar a)) in
  let* rhs := Identity_unit Identity (VAtom fa) in
  Identity___eq__ fuel lhs (VRef rhs).

(** The second functor law as [test_map] asserts it, line 149:
    [map(m, f_after_g) == map(map(m, g), f)] with
    [f_after_g = lambda x: f(g(x))]. *)
Definition functor_composition_check (fuel : nat) (m : loc) (f g : Value)
    : Py bool :=
  let* lhs := map m (VFun (compose f g)) in
  let* inner := map m g in
  let* rhs := map inner f in
  Identity___eq__ fuel lhs (VRef rhs).

(** The scenario of section 8 of the specification: the payload of
    [map(Identity(lambda x: x + 1), lambda y: y * 2)], called with 3. *)
Definition composed_payload_at_3 : Py Atom :=
  let* m := construct Identity (VFun add_one) in
  let* mapped := map m (VFun double) in
  let* payload := getattr_value (VRef mapped) in
  lift (call payload (AScalar (SInt 3))).


(** An int that no double can hold. *)
Definition beyond_double : Z := 2 ^ 1024.

(** A raw function that returns that int whatever it is given. *)
Definition returns_beyond_double : Atom -> Py Atom :=
  fun _ => ret (AScalar (SInt beyond_double)).

(** The outcomes of [f] of [_modify] by the payload [v] of the container
    [made] that [pure(function(x))] gave in the world [w]; [modify_f_run]
    below shows that [f] has them. *)
Definition scrubbed (pure : Value -> Py loc) (made : loc) (v : Value)
    (w : World) : outcome loc :=
  match v with
  | VAtom (AScalar (SFloat x)) =>
      if is_nan x then pure VNone w else Ret made w
  | VAtom (AScalar (SComplex re im)) =>
      if is_nan im || is_nan re then pure VNone w else Ret made w
  | VAtom (AScalar (SInt n)) =>
      match float_of_int n with
      | Ok _ => Ret made w
      | Err e => Raise e
      end
  | VAtom (AScalar (SBool _ | SStr _ | SBytes _ | SNone))
  | VAtom (ARef _) | VFun _ => Ret made w
  end.

(** [o] is settled and [o'] agrees with it, or [o] is outside the model. *)
Definition settles {A} (o o' : outcome A) : Prop :=
  o = Unmodelled \/ o = o'.

(** ** Stores *)

(** [new_instance w v l w']: going from [w] to [w'], exactly one container was
    made, at the address [l] that held nothing before, with payload [v];
    every other container is as it was and no random number was drawn. *)
Definition new_instance (w : World) (v : Value) (l : loc) (w' : World)
    : Prop :=
  heap w !! l = None /\
  heap w' !! l = Some v /\
  (forall k x, heap w !! k = Some x -> heap w' !! k = Some x) /\
  length (heap w') = S (length (heap w)) /\
  entropy w' = entropy w /\
  drawn w' = drawn w.

(** *** The remaining laws of the tests *)

(** Every container of [w] is in [w'], with the payload it has in [w]. *)
Definition extends (w w' : World) : Prop :=
  forall k x, heap w !! k = Some x -> heap w' !! k = Some x.

(** [k], called with [v] in [w0] or any later world, returns a container
    whose payload is [p] and keeps the containers there are.  The container
    may be new each time or one that exists. *)
Definition yields (k : Value -> Py loc) (v p : Value) (w0 : World) : Prop :=
  forall w, extends w0 w ->
    exists l w', k v w = Ret l w' /\ extends w w' /\ heap w' !! l = Some p.

(** A function that wraps the double of its argument:
    [lambda x: Identity(x * 2)]. *)
Definition wrap_double : Value -> Py loc :=
  fun v => match v with
           | VAtom a => let* r := lift (double a) in
                        construct Identity (VAtom r)
           | VFun _ => raise TypeError
           end.

(** Left identity as [test_bind] asserts it, line 167:
    [bind(unit(Identity, value), f) == f(value)]. *)
Definition left_identity_check (fuel : nat) (value : Value)
    (f : Value -> Py loc) : Py bool :=
  let* m := unit Identity value in
  let* lhs := bind m f in
  let* rhs := f value in
  Identity___eq__ fuel lhs (VRef rhs).

(** Right identity, line 173: [bind(monad, monad.unit) == monad]. *)
Definition right_identity_check (fuel : nat) (monad : loc) : Py bool :=
  let* lhs := bind monad (Identity_unit Identity) in
  Identity___eq__ fuel lhs (VRef monad).

(** Associativity, line 179:
    [bind(bind(monad, f), g) == bind(monad, lambda x: bind(f(x), g))]. *)
Definition associativity_check (fuel : nat) (monad : loc)
    (f g : Value -> Py loc) : Py bool :=
  let* inner := bind monad f in
  let* lhs := bind inner g in
  let* rhs := bind monad (fun x => let* fx := f x in bind fx g) in
  Identity___eq__ fuel lhs (VRef rhs).

(** The identity law of [test_app], line 214:
    [apply(monad.unit(identity), monad) == monad]. *)
Definition applicative_identity_check (fuel : nat) (monad : loc) : Py bool :=
  let* u := Identity_unit Identity identity_fn in
  let* lhs := apply u monad in
  Identity___eq__ fuel lhs (VRef monad).


(** A world with a container inside a container: [Identity(7)] at 0,
    [Identity(Identity(7))] at 1 and another [Identity(7)] at 2. *)
Definition nested_world : World :=
  mkWorld [VInt 7; VRef 0%nat; VInt 7] (fun k => Z.of_nat k) 0.

(** A raw function that returns NaN whatever it is given. *)
Definition returns_nan : Atom -> Py Atom :=
  fun _ => ret (AScalar (SFloat S754_nan)).

Lemma stored_new_instance (w : World) (v : Value) :
  new_instance w v (length (heap w)) (stored w v).
Proof.
  unfold new_instance, stored; simpl.
  repeat split.
  - apply lookup_ge_None_2. lia.
  - apply list_lookup_middle. reflexivity.
  - intros k x Hk. rewrite lookup_app_l; [exact Hk|].
    eapply lookup_lt_Some; eauto.
  - rewrite length_app. simpl. lia.
Qed.

Lemma construct_stored (M : MonadType) (v : Value) (w : World) :
  construct M v w = Ret (length (heap w)) (stored w v).
Proof. reflexivity. Qed.

Lemma new_instance_distinct (w w' : World) (v x : Value) (l k : loc) :
  new_instance w v l w' -> heap w !! k = Some x -> l <> k.
Proof.
  intros [Hfresh _] Hk ->. rewrite Hfresh in Hk. discriminate.
Qed.

Lemma getattr_value_stored (w : World) (l : loc) (v : Value) :
  heap w !! l = Some v -> getattr_value (VRef l) w = Ret v w.
Proof. intros H. unfold getattr_value, VRef. rewrite H. reflexivity. Qed.

(** ** [unit] and [Identity.unit] *)

(** C5.  [Identity.unit] never fails.  Given an [Identity] instance it
    returns that very instance and changes nothing; given anything else it
    returns a new [Identity] that wraps the value. *)
Theorem Identity_unit_no_double_wrap (v : Value) (w : World) :
  match v with
  | VAtom (ARef l) => Identity_unit Identity v w = Ret l w
  | VAtom (AScalar _) | VFun _ =>
      exists l w',
        Identity_unit Identity v w = Ret l w' /\ new_instance w v l w'
  end.
Proof.
  destruct v as [[s | l] | f]; simpl.
  - exists (length (heap w)), (stored w (VAtom (AScalar s))).
    split; [reflexivity | apply stored_new_instance].
  - reflexivity.
  - exists (length (heap w)), (stored w (VFun f)).
    split; [reflexivity | apply stored_new_instance].
Qed.

(** C9.  The free function [unit] constructs a new wrapper for every value.
    Given a container that exists it returns another container, whose payload
    is the given one, where [Identity.unit] returns the given container. *)
Theorem unit_always_constructs (M : MonadType) (v v0 : Value) (l0 : loc)
    (w : World) :
  heap w !! l0 = Some v0 ->
  (exists l w', unit M v w = Ret l w' /\ new_instance w v l w') /\
  (exists l w',
      unit M (VRef l0) w = Ret l w' /\
      l <> l0 /\
      heap w' !! l = Some (VRef l0) /\
      heap w' !! l0 = Some v0) /\
  Identity_unit M (VRef l0) w = Ret l0 w.
Proof.
  intros Hl0. split; [|split].
  - exists (length (heap w)), (stored w v).
    split; [reflexivity | apply stored_new_instance].
  - pose proof (stored_new_instance w (VRef l0)) as Hnew.
    exists (length (heap w)), (stored w (VRef l0)).
    split; [reflexivity|]. split; [|split].
    + eapply new_instance_distinct; eauto.
    + destruct Hnew as (_ & Hat & _). exact Hat.
    + destruct Hnew as (_ & _ & Hkeep & _). apply Hkeep, Hl0.
  - reflexivity.
Qed.

Lemma unit_always_constructs_witness :
  heap sample_world !! 0%nat = Some (VInt 5) /\
  (exists l w',
      unit Identity VNone sample_world = Ret l w' /\
      new_instance sample_world VNone l w') /\
  (exists l w',
      unit Identity (VRef 0%nat) sample_world = Ret l w' /\
      l <> 0%nat /\
      heap w' !! l = Some (VRef 0%nat) /\
      heap w' !! 0%nat = Some (VInt 5)) /\
  Identity_unit Identity (VRef 0%nat) sample_world = Ret 0%nat sample_world.
Proof.
  split; [reflexivity|].
  apply (unit_always_constructs Identity VNone (VInt 5) 0%nat sample_world).
  reflexivity.
Defined.

(** ** [apply] *)

Lemma apply_runs_map (u v : loc) (fv : Value) (w : World) :
  heap w !! u = Some fv -> apply u v w = map v fv w.
Proof.
  intros Hu. unfold apply, then_.
  rewrite (getattr_value_stored _ _ _ Hu). reflexivity.
Qed.

(** C8.  When the payload of [u] is a function, [apply(u, v)] is
    [map(v, u.value)]: the same result and the same store. *)
Theorem apply_is_map (u v : loc) (f : pyfun) (w : World) :
  heap w !! u = Some (VFun f) ->
  apply u v w = map v (VFun f) w /\
  Identity_apply u v w = Identity_map v (VFun f) w.
Proof.
  intros Hu. unfold Identity_apply, Identity_map.
  rewrite (apply_runs_map u v (VFun f) w Hu). split; reflexivity.
Qed.

Lemma apply_is_map_witness :
  heap sample_world !! 1%nat = Some (VFun add_one) /\
  apply 1%nat 0%nat sample_world = map 0%nat (VFun add_one) sample_world /\
  Identity_apply 1%nat 0%nat sample_world
  = Identity_map 0%nat (VFun add_one) sample_world.
Proof.
  split; [reflexivity|].
  apply (apply_is_map 1%nat 0%nat add_one sample_world). reflexivity.
Defined.

(** [apply(Identity(lambda x: x + 1), Identity(5))] is a new [Identity(6)]. *)
Example apply_add_one_to_5 :
  apply 1%nat 0%nat sample_world = Ret 4%nat (stored sample_world (VInt 6)).
Proof. reflexivity. Qed.

(** ** [Identity.__eq__] *)

Lemma then_Ret {A B} (c : Py A) (k : A -> Py B) (w w' : World) (a : A) :
  c w = Ret a w' -> then_ c k w = k a w'.
Proof. intros H. unfold then_. rewrite H. reflexivity. Qed.

Lemma then_ret {A B} (a : A) (k : A -> Py B) (w : World) :
  then_ (ret a) k w = k a w.
Proof. reflexivity. Qed.

Lemma then_assoc {A B C} (c : Py A) (k : A -> Py B) (k' : B -> Py C)
    (w : World) :
  then_ (then_ c k) k' w = then_ c (fun a => then_ (k a) k') w.
Proof. unfold then_. destruct (c w); reflexivity. Qed.

Lemma then_lift {A B} (r : result A) (k : A -> Py B) (w : World) :
  then_ (lift r) k w = match r with
                       | Ok a => k a w
                       | Err e => Raise e
                       end.
Proof. destruct r; reflexivity. Qed.

Lemma randrange_100 (w : World) :
  randrange 0 100 w = Ret (entropy w (drawn w) mod 100) (tick w).
Proof. reflexivity. Qed.

Lemma sample_in_range (w : World) : 0 <= entropy w (drawn w) mod 100 < 100.
Proof. apply Z.mod_pos_bound. lia. Qed.

Ltac step H := rewrite (then_Ret _ _ _ _ _ H).

(** How [__eq__] runs on two containers of the store. *)
Lemma Identity_eq_unfold (fuel : nat) (a b : loc) (va vb : Value)
    (w : World) :
  heap w !! a = Some va ->
  heap w !! b = Some vb ->
  Identity___eq__ (S fuel) a (VRef b) w =
    if callable va && callable vb then
      (let* i := randrange 0 100 in
       let* x := lift (call va (AScalar (SInt i))) in
       let* y := lift (call vb (AScalar (SInt i))) in
       py_eq fuel (VAtom x) (VAtom y)) w
    else py_eq fuel va vb w.
Proof.
  intros Ha Hb. cbn [Identity___eq__].
  pose proof (getattr_value_stored _ _ _ Ha) as Ga.
  pose proof (getattr_value_stored _ _ _ Hb) as Gb.
  rewrite (then_Ret _ _ w w (callable va && callable vb)).
  2:{ step Ga. destruct (callable va); simpl; [step Gb|]; reflexivity. }
  destruct (callable va && callable vb).
  - rewrite !(then_Ret _ _ _ _ _ (randrange_100 w)).
    step (getattr_value_stored (tick w) a va Ha).
    rewrite !then_lift.
    destruct (call va _); [|reflexivity].
    step (getattr_value_stored (tick w) b vb Hb).
    reflexivity.
  - step Ga. step Gb. reflexivity.
Qed.

(** *** Fuel *)

Lemma settles_then {A B} (c : Py A) (k k' : A -> Py B) (w : World) :
  (forall a w', settles (k a w') (k' a w')) ->
  settles (then_ c k w) (then_ c k' w).
Proof.
  intros Hk. unfold then_. destruct (c w) as [a w' | e |].
  - apply Hk.
  - right. reflexivity.
  - left. reflexivity.
Qed.

Lemma settles_py_eq_with (E E' : loc -> Value -> Py bool) (a b : Value)
    (w : World) :
  (forall l v w', settles (E l v w') (E' l v w')) ->
  settles (py_eq_with E a b w) (py_eq_with E' a b w).
Proof.
  intros HE. destruct a as [[x | l] | f], b as [[y | k] | g]; simpl;
    try apply HE; right; reflexivity.
Qed.

(** What [__eq__] answers with some fuel it answers with more: the fuel only
    has to cover the nesting of containers in the two payloads. *)
Lemma Identity_eq_more_fuel (fuel : nat) (self : loc) (other : Value)
    (w : World) :
  settles (Identity___eq__ fuel self other w)
          (Identity___eq__ (S fuel) self other w).
Proof.
  revert self other w. induction fuel as [| n IH]; intros self other w.
  - left. reflexivity.
  - cbn [Identity___eq__].
    apply settles_then. intros both w1. destruct both.
    + repeat (apply settles_then; intros).
      apply settles_py_eq_with, IH.
    + repeat (apply settles_then; intros).
      apply settles_py_eq_with, IH.
Qed.

Lemma Identity_eq_fuel_enough (fuel extra : nat) (self : loc) (other : Value)
    (w w' : World) (b : bool) :
  Identity___eq__ fuel self other w = Ret b w' ->
  Identity___eq__ (extra + fuel) self other w = Ret b w'.
Proof.
  intros H. induction extra as [| k IH]; [exact H|].
  destruct (Identity_eq_more_fuel (k + fuel) self other w) as [Hu | He].
  - rewrite Hu in IH. discriminate.
  - change (S k + fuel)%nat with (S (k + fuel)). rewrite <- He. exact IH.
Qed.

(** C3.  On two containers, [__eq__] is the equality of the specification:
    when both payloads are callable it draws one integer [i] of [0, 100) and
    compares [a.value(i)] with [b.value(i)]; otherwise it compares the two
    payloads with [==], under which [None] equals [None]. *)
Theorem Identity_eq_is_spec_equality (fuel : nat) (a b : loc)
    (va vb : Value) (w : World) :
  heap w !! a = Some va ->
  heap w !! b = Some vb ->
  Identity___eq__ (S fuel) a (VRef b) w = spec_equality fuel va vb w /\
  (exists i, randrange 0 100 w = Ret i (tick w) /\ 0 <= i < 100) /\
  spec_equality fuel VNone VNone w = Ret true w.
Proof.
  intros Ha Hb. split; [|split].
  - rewrite (Identity_eq_unfold fuel a b va vb w Ha Hb).
    destruct va as [xa | f], vb as [xb | g]; reflexivity.
  - exists (entropy w (drawn w) mod 100).
    split; [apply randrange_100 | apply sample_in_range].
  - reflexivity.
Qed.

Lemma Identity_eq_is_spec_equality_witness :
  heap sample_world !! 1%nat = Some (VFun add_one) /\
  heap sample_world !! 3%nat = Some (VFun double) /\
  Identity___eq__ 1 1%nat (VRef 3%nat) sample_world
  = spec_equality 0 (VFun add_one) (VFun double) sample_world /\
  (exists i, randrange 0 100 sample_world = Ret i (tick sample_world) /\
             0 <= i < 100) /\
  spec_equality 0 VNone VNone sample_world = Ret true sample_world.
Proof.
  split; [reflexivity|]. split; [reflexivity|].
  apply (Identity_eq_is_spec_equality 0 1%nat 3%nat (VFun add_one)
           (VFun double) sample_world); reflexivity.
Defined.

(** The generator gives 1234 first, so the sample is 34:
    [34 + 1 == 34 * 2] is false. *)
Example add_one_differs_from_double :
  Identity___eq__ 1 1%nat (VRef 3%nat) sample_world
  = Ret false (tick sample_world).
Proof. reflexivity. Qed.

(** [Identity(None) == Identity(None)], for one container and for two. *)
Example None_equals_None :
  Identity___eq__ 1 2%nat (VRef 2%nat) sample_world = Ret true sample_world /\
  (let* other := construct Identity VNone in
   Identity___eq__ 1 2%nat (VRef other)) sample_world
  = Ret true (stored sample_world VNone).
Proof. split; reflexivity. Qed.

(** C10.  When one payload is a function and the other a scalar, [==] is
    false in both directions: nothing is raised and the generator is not
    used. *)
Theorem eq_function_with_scalar (fuel : nat) (a b : loc) (f : pyfun)
    (s : Scalar) (w : World) :
  heap w !! a = Some (VFun f) ->
  heap w !! b = Some (VScalar s) ->
  Identity___eq__ (S fuel) a (VRef b) w = Ret false w /\
  Identity___eq__ (S fuel) b (VRef a) w = Ret false w.
Proof.
  intros Ha Hb. split.
  - rewrite (Identity_eq_unfold fuel a b _ _ w Ha Hb). reflexivity.
  - rewrite (Identity_eq_unfold fuel b a _ _ w Hb Ha). reflexivity.
Qed.

Lemma eq_function_with_scalar_witness :
  heap sample_world !! 1%nat = Some (VFun add_one) /\
  heap sample_world !! 0%nat = Some (VScalar (SInt 5)) /\
  Identity___eq__ 1 1%nat (VRef 0%nat) sample_world = Ret false sample_world /\
  Identity___eq__ 1 0%nat (VRef 1%nat) sample_world = Ret false sample_world.
Proof.
  split; [reflexivity|]. split; [reflexivity|].
  apply (eq_function_with_scalar 0 1%nat 0%nat add_one (SInt 5) sample_world);
    reflexivity.
Defined.

(** *** [==] on a scalar and itself *)

Lemma SFeqb_refl (x : float) : is_nan x = false -> SFeqb x x = true.
Proof.
  unfold SFeqb, SFcompare.
  destruct x as [s | s | | s m e]; simpl; intros H; try discriminate.
  - reflexivity.
  - destruct s; reflexivity.
  - rewrite Z.compare_refl.
    change (Pos.compare_cont Eq m m) with (Pos.compare m m).
    rewrite Pos.compare_refl. destruct s; reflexivity.
Qed.

Lemma scalar_eq_refl (s : Scalar) : nan_free s = true -> scalar_eq s s = true.
Proof.
  destruct s; simpl; intros H; unfold scalar_eq; simpl.
  - rewrite Z.eqb_refl. reflexivity.
  - rewrite Z.eqb_refl. reflexivity.
  - apply String.eqb_refl.
  - apply String.eqb_refl.
  - rewrite SFeqb_refl; [reflexivity|].
    destruct (is_nan x); [discriminate | reflexivity].
  - apply andb_true_iff in H as [Hre Him].
    rewrite !SFeqb_refl; [reflexivity| |].
    + destruct (is_nan im); [discriminate | reflexivity].
    + destruct (is_nan re); [discriminate | reflexivity].
  - reflexivity.
Qed.

Lemma is_Scalar_nan_free (s : Scalar) : is_Scalar s = true -> nan_free s = true.
Proof. destruct s; simpl; intros H; try discriminate; reflexivity. Qed.

(** NaN is the scalar that [==] tells from itself. *)
Example nan_differs_from_itself :
  scalar_eq (SFloat S754_nan) (SFloat S754_nan) = false.
Proof. reflexivity. Qed.

Example one_equals_true_equals_one_point_zero :
  scalar_eq (SInt 1) (SBool true) = true /\
  scalar_eq (SBool true) (SFloat (S754_finite false 4503599627370496 (-52)))
  = true.
Proof. split; reflexivity. Qed.

(** ** [map] and the laws *)

Lemma lookup_stored_new (w : World) (v : Value) :
  heap (stored w v) !! length (heap w) = Some v.
Proof. destruct (stored_new_instance w v) as (_ & H & _). exact H. Qed.

Lemma lookup_stored_old (w : World) (v x : Value) (k : loc) :
  heap w !! k = Some x -> heap (stored w v) !! k = Some x.
Proof. destruct (stored_new_instance w v) as (_ & _ & H & _). apply H. Qed.

(** On a payload that is not callable, [map] applies the function and hands
    the result to [Identity.unit]. *)
Lemma map_atom_payload (monad : loc) (a r : Atom) (function : Value)
    (w : World) :
  heap w !! monad = Some (VAtom a) ->
  call function a = Ok r ->
  map monad function w = Identity_unit Identity (VAtom r) w.
Proof.
  intros Hm Hcall. unfold map.
  step (getattr_value_stored _ _ _ Hm).
  rewrite then_lift, Hcall. reflexivity.
Qed.

(** On a payload [h] that is callable, [map] wraps the function that runs
    [function] on its argument and then [h] on what [function] returned. *)
Lemma map_function_payload (monad : loc) (h : pyfun) (function : Value)
    (w : World) :
  heap w !! monad = Some (VFun h) ->
  map monad function w =
    Ret (length (heap w))
        (stored w (VFun (fun x => let? y := call function x in h y))).
Proof.
  intros Hm. unfold map.
  step (getattr_value_stored _ _ _ Hm). reflexivity.
Qed.

(** [map(m, identity) == m] for every payload that equals itself. *)
Lemma functor_identity_general (fuel : nat) (m : loc) (v : Value)
    (w : World) :
  heap w !! m = Some v ->
  self_equal_payload v ->
  exists w', functor_identity_check (S fuel) m w = Ret true w'.
Proof.
  intros Hm Hv. unfold functor_identity_check.
  destruct v as [[s | l] | h]; simpl in Hv; [| contradiction |].
  - exists (stored w (VScalar s)).
    assert (Hmap : map m identity_fn w
                   = Ret (length (heap w)) (stored w (VScalar s))).
    { rewrite (map_atom_payload m (AScalar s) (AScalar s) identity_fn w Hm);
        reflexivity. }
    step Hmap.
    rewrite (Identity_eq_unfold fuel _ m (VScalar s) (VScalar s)).
    + simpl. unfold py_eq, ret. simpl.
      rewrite (scalar_eq_refl s Hv). reflexivity.
    + apply lookup_stored_new.
    + apply lookup_stored_old, Hm.
  - set (h' := fun x => let? y := call identity_fn x in h y).
    exists (tick (stored w (VFun h'))).
    step (map_function_payload m h identity_fn w Hm). fold h'.
    rewrite (Identity_eq_unfold fuel _ m (VFun h') (VFun h)).
    + simpl. step (randrange_100 (stored w (VFun h'))).
      rewrite !then_lift. unfold h'. simpl. unfold identity.
      destruct (Hv _ (sample_in_range w)) as (r & Hr & Hs).
      rewrite Hr, then_lift.
      unfold py_eq, ret. simpl.
      rewrite (scalar_eq_refl r Hs). reflexivity.
    + apply lookup_stored_new.
    + apply lookup_stored_old, Hm.
Qed.

Lemma declared_self_equal (v : Value) :
  declared_payload v -> self_equal_payload v.
Proof.
  destruct v as [[s | l] | h]; simpl.
  - apply is_Scalar_nan_free.
  - exact (fun H => H).
  - intros Hh i _. destruct (Hh (SInt i) eq_refl) as (r & Hr & Hs).
    exists r. split; [exact Hr | apply is_Scalar_nan_free, Hs].
Qed.

(** C6.  For a container whose payload is a member of [Scalar] or a
    [RegularFunction], [map(m, identity) == m] is true, in the function form
    and in the method form. *)
Theorem functor_identity_law (fuel : nat) (m : loc) (v : Value) (w : World) :
  heap w !! m = Some v ->
  declared_payload v ->
  exists w',
    functor_identity_check (S fuel) m w = Ret true w' /\
    functor_identity_check_method (S fuel) m w = Ret true w'.
Proof.
  intros Hm Hv.
  destruct (functor_identity_general fuel m v w Hm (declared_self_equal v Hv))
    as [w' Hw'].
  exists w'. split; exact Hw'.
Qed.

Lemma double_regular : RegularFunction double.
Proof.
  intros s Hs. destruct s; try discriminate; eexists; split; reflexivity.
Qed.

Lemma functor_identity_law_witness :
  heap sample_world !! 3%nat = Some (VFun double) /\
  declared_payload (VFun double) /\
  exists w',
    functor_identity_check 1 3%nat sample_world = Ret true w' /\
    functor_identity_check_method 1 3%nat sample_world = Ret true w'.
Proof.
  split; [reflexivity|]. split; [exact double_regular|].
  apply (functor_identity_law 0 3%nat (VFun double) sample_world);
    [reflexivity | exact double_regular].
Defined.

(** [map(Identity(5), identity) == Identity(5)]. *)
Example functor_identity_on_5 :
  functor_identity_check 1 0%nat sample_world
  = Ret true (stored sample_world (VInt 5)).
Proof. reflexivity. Qed.

(** A payload outside the declared type: [Identity(nan)] is not equal to
    itself mapped, because NaN is not equal to itself. *)
Example functor_identity_on_nan :
  functor_identity_check 1 0%nat
    (mkWorld [VScalar (SFloat S754_nan)] (fun _ => 0) 0)
  = Ret false
      (mkWorld [VScalar (SFloat S754_nan); VScalar (SFloat S754_nan)]
               (fun _ => 0) 0).
Proof. reflexivity. Qed.

(** [apply(unit(f), unit(a)) == unit(f(a))] whenever [f(a)] is a scalar
    without NaN. *)
Lemma homomorphism_general (fuel : nat) (f : pyfun) (a r : Scalar)
    (w : World) :
  f (AScalar a) = Ok (AScalar r) ->
  nan_free r = true ->
  exists w', homomorphism_check (S fuel) f a w = Ret true w'.
Proof.
  intros Hr Hs. unfold homomorphism_check.
  set (w1 := stored w (VFun f)).
  set (w2 := stored w1 (VScalar a)).
  set (w3 := stored w2 (VScalar r)).
  set (w4 := stored w3 (VScalar r)).
  exists w4.
  step (eq_refl : Identity_unit Identity (VFun f) w = Ret (length (heap w)) w1).
  step (eq_refl : Identity_unit Identity (VScalar a) w1
                  = Ret (length (heap w1)) w2).
  assert (Happ : apply (length (heap w)) (length (heap w1)) w2
                 = Ret (length (heap w2)) w3).
  { rewrite (apply_runs_map _ _ (VFun f)).
    - rewrite (map_atom_payload _ (AScalar a) (AScalar r)).
      + reflexivity.
      + apply lookup_stored_new.
      + exact Hr.
    - apply lookup_stored_old, lookup_stored_new. }
  step Happ. rewrite then_lift, Hr.
  step (eq_refl : Identity_unit Identity (VAtom (AScalar r)) w3
                  = Ret (length (heap w3)) w4).
  rewrite (Identity_eq_unfold fuel _ _ (VScalar r) (VScalar r)).
  - simpl. unfold py_eq, ret. simpl.
    rewrite (scalar_eq_refl r Hs). reflexivity.
  - apply lookup_stored_old, lookup_stored_new.
  - apply lookup_stored_new.
Qed.

(** C7.  For a member [a] of [Scalar] and a [RegularFunction] [f],
    [apply(unit(f), unit(a)) == unit(f(a))] is true. *)
Theorem applicative_homomorphism (fuel : nat) (f : pyfun) (a : Scalar)
    (w : World) :
  is_Scalar a = true ->
  RegularFunction f ->
  exists w', homomorphism_check (S fuel) f a w = Ret true w'.
Proof.
  intros Ha Hf. destruct (Hf a Ha) as (r & Hr & Hs).
  apply (homomorphism_general fuel f a r w Hr).
  apply is_Scalar_nan_free, Hs.
Qed.

Lemma applicative_homomorphism_witness :
  is_Scalar (SInt 21) = true /\
  RegularFunction double /\
  exists w', homomorphism_check 1 double (SInt 21) fresh_world = Ret true w'.
Proof.
  split; [reflexivity|]. split; [exact double_regular|].
  apply (applicative_homomorphism 0 double (SInt 21) fresh_world);
    [reflexivity | exact double_regular].
Defined.

(** [apply(unit(lambda y: y * 2), unit(21)) == unit(42)]: four containers are
    made, the last two hold 42. *)
Example homomorphism_on_21 :
  homomorphism_check 1 double (SInt 21) fresh_world
  = Ret true
      (mkWorld [VFun double; VInt 21; VInt 42; VInt 42]
               (entropy fresh_world) 0).
Proof. reflexivity. Qed.

(** ** Which container comes back *)

(** [map] returns what [function] returned when that is a container:
    [Identity.unit] does not wrap it again. *)
Lemma map_passes_container (monad l : loc) (a : Atom) (function : Value)
    (w : World) :
  heap w !! monad = Some (VAtom a) ->
  call function a = Ok (ARef l) ->
  map monad function w = Ret l w.
Proof.
  intros Hm Hcall.
  rewrite (map_atom_payload monad a (ARef l) function w Hm Hcall).
  reflexivity.
Qed.





(** [bind(Identity(5), lambda x: Identity(x * 2))] is the [Identity(10)] that
    the function made. *)
Example bind_double_5 :
  bind 0%nat
    (fun v => match v with
              | VAtom a => let* r := lift (double a) in
                           construct Identity (VAtom r)
              | VFun _ => raise TypeError
              end)
    sample_world
  = Ret 4%nat (stored sample_world (VInt 10)).
Proof. reflexivity. Qed.

(** [map(Identity(5), lambda x: x + 1)] is a new [Identity(6)]. *)
Example map_add_one_5 :
  map 0%nat (VFun add_one) sample_world
  = Ret 4%nat (stored sample_world (VInt 6)).
Proof. reflexivity. Qed.

(** ** [map] on a payload that is a function *)

(** C1.  The payload of [map(Identity(lambda x: x + 1), lambda y: y * 2)],
    called with 3, returns 7: the function given to [map] runs first, on the
    argument, and the payload of the container runs on its result. *)
Theorem map_on_function_runs_argument_first (w : World) :
  exists w', composed_payload_at_3 w = Ret (AScalar (SInt 7)) w'.
Proof.
  unfold composed_payload_at_3.
  set (w1 := stored w (VFun add_one)).
  step (construct_stored Identity (VFun add_one) w).
  step (map_function_payload (length (heap w)) add_one (VFun double) w1
          (lookup_stored_new w (VFun add_one))).
  match goal with
  | |- context [stored w1 ?p] =>
      step (getattr_value_stored (stored w1 p) (length (heap w1)) p
              (lookup_stored_new w1 p))
  end.
  eexists. reflexivity.
Qed.

(** The composition law of [test_map] does not hold for a payload that is a
    function: with [Identity(identity)], [f = lambda x: x + 1] and
    [g = lambda y: y * 2], the two sides differ at every sample [i], since
    the left gives [2 * i + 1] and the right [(i + 1) * 2]. *)
Lemma functor_composition_fails_on_function (fuel : nat) (w : World) :
  exists w',
    (let* m := construct Identity identity_fn in
     functor_composition_check (S fuel) m (VFun add_one) (VFun double)) w
    = Ret false w'.
Proof.
  unfold functor_composition_check.
  step (construct_stored Identity identity_fn w).
  set (w1 := stored w identity_fn).
  pose proof (lookup_stored_new w identity_fn) as Hm. fold w1 in Hm.
  unfold identity_fn in Hm.
  step (map_function_payload (length (heap w)) _ 
          (VFun (compose (VFun add_one) (VFun double))) w1 Hm).
  match goal with
  | |- context [then_ _ _ (stored w1 ?p)] => set (p1 := p); set (w2 := stored w1 p1)
  end.
  step (map_function_payload (length (heap w)) _ (VFun double) w2
          (lookup_stored_old w1 p1 _ _ Hm)).
  match goal with
  | |- context [then_ _ _ (stored w2 ?p)] => set (p2 := p); set (w3 := stored w2 p2)
  end.
  assert (H2 : heap w3 !! length (heap w2) = Some p2)
    by apply lookup_stored_new.
  unfold p2 in H2.
  step (map_function_payload (length (heap w2)) _ (VFun add_one) w3 H2).
  match goal with
  | |- context [stored w3 ?p] => set (p3 := p); set (w4 := stored w3 p3)
  end.
  rewrite (Identity_eq_unfold fuel _ _ p1 p3).
  - simpl. step (randrange_100 w4). exists (tick w4).
    unfold then_, ret, identity, scalar_eq. simpl.
    match goal with
    | |- context [?a =? ?b] => replace (a =? b) with false; [reflexivity|]
    end.
    symmetry. apply Z.eqb_neq. lia.
  - apply lookup_stored_old, lookup_stored_old.
    apply (lookup_stored_new w1 p1).
  - apply lookup_stored_new.
Qed.

(** On a payload that is not callable the same law holds, which is what
    [test_map] checks: there [map] applies the function to the payload. *)
Lemma functor_composition_holds_on_scalar (fuel : nat) (m : loc)
    (a b c : Scalar) (f g : pyfun) (w : World) :
  heap w !! m = Some (VScalar a) ->
  g (AScalar a) = Ok (AScalar b) ->
  f (AScalar b) = Ok (AScalar c) ->
  nan_free c = true ->
  exists w',
    functor_composition_check (S fuel) m (VFun f) (VFun g) w = Ret true w'.
Proof.
  intros Hm Hg Hf Hc. unfold functor_composition_check.
  set (w1 := stored w (VScalar c)).
  set (w2 := stored w1 (VScalar b)).
  set (w3 := stored w2 (VScalar c)).
  exists w3.
  assert (H1 : map m (VFun (compose (VFun f) (VFun g))) w
               = Ret (length (heap w)) w1).
  { rewrite (map_atom_payload m (AScalar a) (AScalar c) _ w Hm); [reflexivity|].
    unfold compose. simpl. rewrite Hg. exact Hf. }
  step H1.
  assert (H2 : map m (VFun g) w1 = Ret (length (heap w1)) w2).
  { rewrite (map_atom_payload m (AScalar a) (AScalar b) _ w1);
      [reflexivity | apply lookup_stored_old, Hm | exact Hg]. }
  step H2.
  assert (H3 : map (length (heap w1)) (VFun f) w2 = Ret (length (heap w2)) w3).
  { rewrite (map_atom_payload _ (AScalar b) (AScalar c) _ w2);
      [reflexivity | apply lookup_stored_new | exact Hf]. }
  step H3.
  rewrite (Identity_eq_unfold fuel _ _ (VScalar c) (VScalar c)).
  - simpl. unfold py_eq, ret. simpl. rewrite (scalar_eq_refl c Hc). reflexivity.
  - apply lookup_stored_old, lookup_stored_old, lookup_stored_new.
  - apply lookup_stored_new.
Qed.

(** ** The determinizer *)

Lemma float_of_int_beyond_double :
  float_of_int beyond_double = Err OverflowError.
Proof. vm_compute. reflexivity. Qed.

(** The largest int that [float] takes and the smallest it refuses. *)
Example float_of_int_threshold :
  float_of_int (2 ^ 1024 - 2 ^ 970 - 1)
  = Ok (S754_finite false 9007199254740991 971) /\
  float_of_int (2 ^ 1024 - 2 ^ 970) = Err OverflowError.
Proof. split; vm_compute; reflexivity. Qed.

(** The body of [f]: after [pure(function(x))] it returns [pure(None)] for a
    NaN, raises what [math.isnan] raises, and returns the container as it is
    otherwise. *)
Lemma modify_f_run (function : Atom -> Py Atom) (pure : Value -> Py loc)
    (x r : Atom) (res : loc) (v : Value) (w w1 w2 : World) :
  function x w = Ret r w1 ->
  pure (VAtom r) w1 = Ret res w2 ->
  heap w2 !! res = Some v ->
  _modify_f function pure x w = scrubbed pure res v w2.
Proof.
  intros Hf Hp Hv. unfold _modify_f.
  step Hf. step Hp. step (getattr_value_stored _ _ _ Hv).
  destruct v as [[s | l] | g]; try reflexivity.
  destruct s as [n | b | s | s | y | re im |]; try reflexivity.
  - unfold scrubbed, isinstance_Complex, isnan_attr, attr_imag, attr_real.
    cbn [result_bind math_isnan]. 
    replace (float_of_int 0) with (Ok float_zero : result float)
      by (vm_compute; reflexivity).
    cbn [result_bind lift].
    rewrite then_assoc, then_ret, then_lift.
    destruct (float_of_int n); reflexivity.
  - destruct b; reflexivity.
  - unfold scrubbed, isinstance_Complex, isnan_attr, attr_imag, attr_real.
    cbn [result_bind math_isnan is_nan lift].
    destruct (is_nan y); reflexivity.
  - unfold scrubbed, isinstance_Complex, isnan_attr, attr_imag, attr_real.
    cbn [result_bind math_isnan lift].
    destruct (is_nan im), (is_nan re); reflexivity.
Qed.

(** A call of the wrapper with an argument that has no entry yet runs [f]
    and stores what it returned. *)
Lemma modify_miss (function : Atom -> Py Atom) (pure : Value -> Py loc)
    (cache : lru_cache loc) (x r : Atom) (res : loc) (v : Value)
    (w w1 w2 : World) :
  hashable x = true ->
  cache_get cache x = None ->
  function x w = Ret r w1 ->
  pure (VAtom r) w1 = Ret res w2 ->
  heap w2 !! res = Some v ->
  _modify function pure cache x w =
    match scrubbed pure res v w2 with
    | Ret out w3 => Ret (out, cache ++ [(x, out)]) w3
    | Raise e => Raise e
    | Unmodelled => Unmodelled
    end.
Proof.
  intros Hx Hget Hf Hp Hv. unfold _modify, lru_cache_call.
  rewrite Hx, Hget. cbn [negb]. unfold then_.
  rewrite (modify_f_run function pure x r res v w w1 w2 Hf Hp Hv).
  destruct (scrubbed pure res v w2); reflexivity.
Qed.

(** C4.  Where the claim fails: a raw function returns an int too large for
    a double, and the wrapper raises [OverflowError] where [pure(f(x))] was
    to come back unchanged.  [isinstance(result.value, Complex)] holds of
    every int, and [math.isnan] converts its argument to a float. *)
Theorem modify_raises_on_large_int (w : World) :
  _modify returns_beyond_double (Identity_unit Identity) []
          (AScalar (SInt 0)) w
  = Raise OverflowError.
Proof.
  rewrite (modify_miss returns_beyond_double (Identity_unit Identity) []
             (AScalar (SInt 0)) (AScalar (SInt beyond_double))
             (length (heap w)) (VInt beyond_double)
             w w (stored w (VInt beyond_double))).
  - unfold scrubbed, VInt, VScalar.
    rewrite float_of_int_beyond_double. reflexivity.
  - reflexivity.
  - reflexivity.
  - reflexivity.
  - reflexivity.
  - apply lookup_stored_new.
Qed.

(** What the claim says does hold for the other results.  A NaN, alone or
    as a part of a complex number, gives [pure(None)]. *)
Lemma modify_f_scrubs_nan (function : Atom -> Py Atom)
    (pure : Value -> Py loc) (x r : Atom) (res : loc) (s : Scalar)
    (w w1 w2 : World) :
  function x w = Ret r w1 ->
  pure (VAtom r) w1 = Ret res w2 ->
  heap w2 !! res = Some (VScalar s) ->
  isinstance_Complex (VScalar s) = true ->
  nan_free s = false ->
  _modify_f function pure x w = pure VNone w2.
Proof.
  intros Hf Hp Hv Hnum Hnan.
  rewrite (modify_f_run function pure x r res (VScalar s) w w1 w2 Hf Hp Hv).
  destruct s as [n | b | s | s | y | re im |]; try discriminate; simpl in *.
  - destruct (is_nan y); [reflexivity | discriminate].
  - destruct (is_nan im), (is_nan re); try reflexivity; discriminate.
Qed.

(** A result that is no number, a float or complex number without NaN, a
    bool and an int that a double can hold come back in the container that
    [pure] made. *)
Lemma modify_f_keeps (function : Atom -> Py Atom) (pure : Value -> Py loc)
    (x r : Atom) (res : loc) (v : Value) (w w1 w2 : World) :
  function x w = Ret r w1 ->
  pure (VAtom r) w1 = Ret res w2 ->
  heap w2 !! res = Some v ->
  match v with
  | VAtom (AScalar (SInt n)) => exists y, float_of_int n = Ok y
  | VAtom (AScalar s) => nan_free s = true
  | VAtom (ARef _) | VFun _ => True
  end ->
  _modify_f function pure x w = Ret res w2.
Proof.
  intros Hf Hp Hv Hok.
  rewrite (modify_f_run function pure x r res v w w1 w2 Hf Hp Hv).
  destruct v as [[s | l] | g]; try reflexivity.
  destruct s as [n | b | s | s | y | re im |]; try reflexivity; simpl in *.
  - destruct Hok as [y Hy]. rewrite Hy. reflexivity.
  - destruct (is_nan y); [discriminate | reflexivity].
  - destruct (is_nan im), (is_nan re); try discriminate; reflexivity.
Qed.

Lemma float_same_refl (x : float) : float_same x x = true.
Proof.
  destruct x as [s | s | | s m e]; simpl; try reflexivity.
  - destruct s; reflexivity.
  - destruct s; reflexivity.
  - rewrite Pos.eqb_refl, Z.eqb_refl. destruct s; reflexivity.
Qed.

Lemma scalar_same_refl (s : Scalar) : scalar_same s s = true.
Proof.
  destruct s; simpl;
    rewrite ?Z.eqb_refl, ?String.eqb_refl, ?float_same_refl; try reflexivity.
  destruct b; reflexivity.
Qed.

(** An argument that can be a key finds the entry stored under it. *)
Lemma key_matches_refl (x : Atom) : hashable x = true -> key_matches x x = true.
Proof.
  destruct x as [s | l]; [|discriminate]. intros _. unfold key_matches.
  destruct (fasttype (AScalar s)) eqn:Hfast.
  - destruct s; try discriminate; simpl.
    + unfold scalar_eq. simpl. rewrite Z.eqb_refl. reflexivity.
    + apply String.eqb_refl.
  - rewrite scalar_same_refl. reflexivity.
Qed.

Lemma cache_get_stored {A} (cache : lru_cache A) (x : Atom) (r : A) :
  hashable x = true ->
  cache_get cache x = None ->
  cache_get (cache ++ [(x, r)]) x = Some r.
Proof.
  intros Hx. induction cache as [| [k r'] rest IH]; simpl.
  - intros _. rewrite (key_matches_refl x Hx). reflexivity.
  - destruct (key_matches x k); [discriminate | exact IH].
Qed.

(** Once a call with [x] has returned, every later call with [x] returns the
    same container again, whatever the raw function would do now; it changes
    neither the store nor the cache. *)
Lemma lru_cache_call_again {A} (user_function : Atom -> Py A)
    (cache cache' : lru_cache A) (x : Atom) (r : A) (w w' : World) :
  lru_cache_call user_function cache x w = Ret (r, cache') w' ->
  forall w'', lru_cache_call user_function cache' x w'' = Ret (r, cache') w''.
Proof.
  unfold lru_cache_call. destruct (hashable x) eqn:Hx; simpl; [|discriminate].
  destruct (cache_get cache x) as [c |] eqn:Hget.
  - intros H w''. inversion H; subst. rewrite Hget. reflexivity.
  - unfold then_. destruct (user_function x w) as [c w1 | e |]; try discriminate.
    intros H w''. inversion H; subst.
    rewrite (cache_get_stored cache x r Hx Hget). reflexivity.
Qed.

Lemma modify_memoizes (function : Atom -> Py Atom) (pure : Value -> Py loc)
    (cache cache' : lru_cache loc) (x : Atom) (out : loc) (w w' : World) :
  _modify function pure cache x w = Ret (out, cache') w' ->
  forall w'', _modify function pure cache' x w'' = Ret (out, cache') w''.
Proof. apply lru_cache_call_again. Qed.

(** A raw function that returns NaN: the wrapper returns a second container,
    which holds [None]. *)
Example modify_nan_gives_None :
  _modify (fun _ => ret (AScalar (SFloat S754_nan))) (Identity_unit Identity)
          [] (AScalar (SInt 0)) fresh_world
  = Ret (1%nat, [(AScalar (SInt 0), 1%nat)])
        (mkWorld [VScalar (SFloat S754_nan); VNone] (entropy fresh_world) 0).
Proof. reflexivity. Qed.

(** The keys of [True] and [1.0] are equal, so the call with [True] after
    the call with [1.0] is a hit; the keys of [1] and ["1"] differ. *)
Example cache_keys :
  key_matches (AScalar (SBool true))
              (AScalar (SFloat (S754_finite false 4503599627370496 (-52))))
  = true /\
  key_matches (AScalar (SInt 1)) (AScalar (SStr "1")) = false.
Proof. split; reflexivity. Qed.

(** ** The monad laws and the applicative identity law *)

Lemma extends_refl (w : World) : extends w w.
Proof. intros k x H. exact H. Qed.

Lemma extends_trans (w1 w2 w3 : World) :
  extends w1 w2 -> extends w2 w3 -> extends w1 w3.
Proof. intros H12 H23 k x H. apply H23, H12, H. Qed.

Lemma extends_stored (w : World) (v : Value) : extends w (stored w v).
Proof. intros k x H. apply lookup_stored_old, H. Qed.

(** Two containers with one payload that equals itself are equal. *)
Lemma eq_same_payload (fuel : nat) (a b : loc) (p : Value) (w : World) :
  heap w !! a = Some p ->
  heap w !! b = Some p ->
  self_equal_payload p ->
  exists w', Identity___eq__ (S fuel) a (VRef b) w = Ret true w'.
Proof.
  intros Ha Hb Hp. rewrite (Identity_eq_unfold fuel a b p p w Ha Hb).
  destruct p as [[s | l] | h]; simpl in Hp; [| contradiction |].
  - exists w. simpl. unfold py_eq, ret. simpl.
    rewrite (scalar_eq_refl s Hp). reflexivity.
  - exists (tick w). simpl. step (randrange_100 w).
    destruct (Hp _ (sample_in_range w)) as (r & Hr & Hs).
    rewrite !then_lift. simpl. rewrite Hr, then_lift.
    unfold py_eq, ret. simpl. rewrite (scalar_eq_refl r Hs). reflexivity.
Qed.

Lemma bind_runs (monad : loc) (v : Value) (k : Value -> Py loc) (w : World) :
  heap w !! monad = Some v -> bind monad k w = k v w.
Proof.
  intros Hm. unfold bind. step (getattr_value_stored _ _ _ Hm). reflexivity.
Qed.

(** X1.  Left identity: when [f(value)] returns a container whose payload
    [p] equals itself, [bind(unit(Identity, value), f) == f(value)] is true,
    whether [f] makes a container at each call or returns one it has. *)
Theorem monad_left_identity (fuel : nat) (value p : Value)
    (f : Value -> Py loc) (w : World) :
  yields f value p w ->
  self_equal_payload p ->
  exists w', left_identity_check (S fuel) value f w = Ret true w'.
Proof.
  intros Hf Hp. unfold left_identity_check.
  step (eq_refl : unit Identity value w
                  = Ret (length (heap w)) (stored w value)).
  destruct (Hf (stored w value) (extends_stored w value))
    as (l1 & w1 & H1 & E1 & P1).
  rewrite <- (bind_runs _ _ f _ (lookup_stored_new w value)) in H1.
  step H1.
  destruct (Hf w1 (extends_trans _ _ _ (extends_stored w value) E1))
    as (l2 & w2 & H2 & E2 & P2).
  step H2.
  apply (eq_same_payload fuel l1 l2 p w2 (E2 _ _ P1) P2 Hp).
Qed.

Lemma wrap_double_yields (n : Z) (w0 : World) :
  yields wrap_double (VInt n) (VInt (n * 2)) w0.
Proof.
  intros w _. exists (length (heap w)), (stored w (VInt (n * 2))).
  split; [reflexivity|]. split; [apply extends_stored | apply lookup_stored_new].
Qed.

Lemma monad_left_identity_witness :
  yields wrap_double (VInt 5) (VInt (5 * 2)) fresh_world /\
  self_equal_payload (VInt (5 * 2)) /\
  exists w',
    left_identity_check 1 (VInt 5) wrap_double fresh_world = Ret true w'.
Proof.
  split; [apply wrap_double_yields|]. split; [reflexivity|].
  apply (monad_left_identity 0 (VInt 5) (VInt (5 * 2)) wrap_double fresh_world);
    [apply wrap_double_yields | reflexivity].
Defined.

(** X2.  Right identity: for a container whose payload is a scalar without
    NaN or a function that returns such scalars on [0, 100),
    [bind(monad, monad.unit) == monad] is true. *)
Theorem monad_right_identity (fuel : nat) (m : loc) (v : Value) (w : World) :
  heap w !! m = Some v ->
  self_equal_payload v ->
  exists w', right_identity_check (S fuel) m w = Ret true w'.
Proof.
  intros Hm Hv. unfold right_identity_check.
  assert (Hb : bind m (Identity_unit Identity) w
               = Ret (length (heap w)) (stored w v)).
  { rewrite (bind_runs m v _ w Hm).
    destruct v as [[s | l] | h]; simpl in Hv; [| contradiction |]; reflexivity. }
  step Hb.
  apply (eq_same_payload fuel _ m v (stored w v)); [| | exact Hv].
  - apply lookup_stored_new.
  - apply lookup_stored_old, Hm.
Qed.

Lemma add_one_self_equal : self_equal_payload (VFun add_one).
Proof. intros i _. eexists. split; reflexivity. Qed.

Lemma monad_right_identity_witness :
  heap sample_world !! 1%nat = Some (VFun add_one) /\
  self_equal_payload (VFun add_one) /\
  exists w', right_identity_check 1 1%nat sample_world = Ret true w'.
Proof.
  split; [reflexivity|]. split; [exact add_one_self_equal|].
  apply (monad_right_identity 0 1%nat (VFun add_one) sample_world);
    [reflexivity | exact add_one_self_equal].
Defined.

(** X3.  Associativity: when [f] returns a container holding [p1] for the
    payload of [monad] and [g] returns a container holding [p2] for [p1], and
    [p2] equals itself,
    [bind(bind(monad, f), g) == bind(monad, lambda x: bind(f(x), g))] is
    true. *)
Theorem monad_associativity (fuel : nat) (m : loc) (v p1 p2 : Value)
    (f g : Value -> Py loc) (w : World) :
  heap w !! m = Some v ->
  yields f v p1 w ->
  yields g p1 p2 w ->
  self_equal_payload p2 ->
  exists w', associativity_check (S fuel) m f g w = Ret true w'.
Proof.
  intros Hm Hf Hg Hp. unfold associativity_check.
  destruct (Hf w (extends_refl w)) as (l1 & w1 & H1 & E1 & P1).
  rewrite <- (bind_runs m v f w Hm) in H1. step H1.
  destruct (Hg w1 E1) as (l2 & w2 & H2 & E2 & P2).
  rewrite <- (bind_runs l1 p1 g w1 P1) in H2. step H2.
  pose proof (extends_trans _ _ _ E1 E2) as E02.
  destruct (Hf w2 E02) as (l3 & w3 & H3 & E3 & P3).
  pose proof (extends_trans _ _ _ E02 E3) as E03.
  destruct (Hg w3 E03) as (l4 & w4 & H4 & E4 & P4).
  assert (Hrhs : bind m (fun x => let* fx := f x in bind fx g) w2 = Ret l4 w4).
  { rewrite (bind_runs m v _ w2 (E02 _ _ Hm)). step H3.
    rewrite (bind_runs l3 p1 g w3 P3). exact H4. }
  step Hrhs.
  apply (eq_same_payload fuel l2 l4 p2 w4); [| exact P4 | exact Hp].
  apply E4, E3, P2.
Qed.

Lemma monad_associativity_witness :
  heap sample_world !! 0%nat = Some (VInt 5) /\
  yields wrap_double (VInt 5) (VInt (5 * 2)) sample_world /\
  yields wrap_double (VInt (5 * 2)) (VInt (5 * 2 * 2)) sample_world /\
  self_equal_payload (VInt (5 * 2 * 2)) /\
  exists w',
    associativity_check 1 0%nat wrap_double wrap_double sample_world
    = Ret true w'.
Proof.
  split; [reflexivity|]. split; [apply wrap_double_yields|].
  split; [apply wrap_double_yields|]. split; [reflexivity|].
  apply (monad_associativity 0 0%nat (VInt 5) (VInt (5 * 2))
           (VInt (5 * 2 * 2)) wrap_double wrap_double sample_world);
    [reflexivity | apply wrap_double_yields | apply wrap_double_yields
    | reflexivity].
Defined.

(** X4.  The identity law of the applicative: for a container whose payload
    is a scalar without NaN or a function that returns such scalars on
    [0, 100), [apply(monad.unit(identity), monad) == monad] is true. *)
Theorem applicative_identity (fuel : nat) (m : loc) (v : Value) (w : World) :
  heap w !! m = Some v ->
  self_equal_payload v ->
  exists w', applicative_identity_check (S fuel) m w = Ret true w'.
Proof.
  intros Hm Hv. unfold applicative_identity_check.
  step (eq_refl : Identity_unit Identity identity_fn w
                  = Ret (length (heap w)) (stored w identity_fn)).
  pose proof (lookup_stored_old w identity_fn v m Hm) as Hm'.
  destruct (functor_identity_general fuel m v (stored w identity_fn) Hm' Hv)
    as [w' Hw'].
  exists w'. rewrite <- Hw'. unfold functor_identity_check, then_.
  rewrite (apply_runs_map _ m identity_fn (stored w identity_fn)
             (lookup_stored_new w identity_fn)).
  reflexivity.
Qed.

Lemma applicative_identity_witness :
  heap sample_world !! 1%nat = Some (VFun add_one) /\
  self_equal_payload (VFun add_one) /\
  exists w', applicative_identity_check 1 1%nat sample_world = Ret true w'.
Proof.
  split; [reflexivity|]. split; [exact add_one_self_equal|].
  apply (applicative_identity 0 1%nat (VFun add_one) sample_world);
    [reflexivity | exact add_one_self_equal].
Defined.

(** ** What the operations leave alone *)
















(** ** Errors and edges of [map], [apply] and [bind] *)

(** X7.  [apply] with a lifted "function" whose payload is not callable:
    when the payload of the lifted value is not callable either, the call
    fails with [TypeError]; when it is a function, nothing is called yet, and
    [apply] returns a new container whose payload raises [TypeError] at every
    argument. *)
Theorem apply_with_non_function (u v : loc) (a : Atom) (vv : Value)
    (w : World) :
  heap w !! u = Some (VAtom a) ->
  heap w !! v = Some vv ->
  match vv with
  | VAtom _ => apply u v w = Raise TypeError
  | VFun _ =>
      exists l w' p,
        apply u v w = Ret l w' /\
        new_instance w (VFun p) l w' /\
        forall x, p x = Err TypeError
  end.
Proof.
  intros Hu Hv. rewrite (apply_runs_map u v (VAtom a) w Hu).
  destruct vv as [b | h].
  - unfold map. step (getattr_value_stored _ _ _ Hv). reflexivity.
  - rewrite (map_function_payload v h (VAtom a) w Hv).
    eexists _, _, _. split; [reflexivity|].
    split; [apply stored_new_instance|]. reflexivity.
Qed.

Lemma apply_with_non_function_witness :
  heap sample_world !! 0%nat = Some (VAtom (AScalar (SInt 5))) /\
  heap sample_world !! 2%nat = Some VNone /\
  apply 0%nat 2%nat sample_world = Raise TypeError.
Proof.
  split; [reflexivity|]. split; [reflexivity|].
  apply (apply_with_non_function 0%nat 2%nat (AScalar (SInt 5)) VNone
           sample_world); reflexivity.
Defined.

(** X8.  Wrapping a container again and binding with [Identity.unit], or
    mapping [identity], gives the inner container back: the very instance,
    where a scalar payload would be wrapped in a new one. *)
Theorem bind_unit_unwraps (c : loc) (w : World) :
  (let* m := unit Identity (VRef c) in bind m (Identity_unit Identity)) w
  = Ret c (stored w (VRef c)) /\
  (let* m := unit Identity (VRef c) in map m identity_fn) w
  = Ret c (stored w (VRef c)).
Proof.
  pose proof (lookup_stored_new w (VRef c)) as Hm.
  split.
  - step (eq_refl : unit Identity (VRef c) w
                    = Ret (length (heap w)) (stored w (VRef c))).
    rewrite (bind_runs _ _ _ _ Hm). reflexivity.
  - step (eq_refl : unit Identity (VRef c) w
                    = Ret (length (heap w)) (stored w (VRef c))).
    rewrite (map_atom_payload _ (ARef c) (ARef c) identity_fn _ Hm);
      reflexivity.
Qed.

(** X9.  The composition law of [test_map] on a payload that is not a
    function: for a member of [Scalar] and two [RegularFunction]s,
    [map(m, lambda x: f(g(x))) == map(map(m, g), f)] is true. *)
Theorem functor_composition_law (fuel : nat) (m : loc) (a : Scalar)
    (f g : pyfun) (w : World) :
  heap w !! m = Some (VScalar a) ->
  is_Scalar a = true ->
  RegularFunction f ->
  RegularFunction g ->
  exists w',
    functor_composition_check (S fuel) m (VFun f) (VFun g) w = Ret true w'.
Proof.
  intros Hm Ha Hf Hg.
  destruct (Hg a Ha) as (b & Hb & Hbs).
  destruct (Hf b Hbs) as (c & Hc & Hcs).
  apply (functor_composition_holds_on_scalar fuel m a b c f g w Hm Hb Hc).
  apply is_Scalar_nan_free, Hcs.
Qed.

Lemma functor_composition_law_witness :
  heap sample_world !! 0%nat = Some (VScalar (SInt 5)) /\
  is_Scalar (SInt 5) = true /\
  RegularFunction double /\
  exists w',
    functor_composition_check 1 0%nat (VFun double) (VFun double)
      sample_world = Ret true w'.
Proof.
  split; [reflexivity|]. split; [reflexivity|]. split; [exact double_regular|].
  apply (functor_composition_law 0 0%nat (SInt 5) double double sample_world);
    [reflexivity | reflexivity | exact double_regular | exact double_regular].
Defined.

(** X10.  On a payload [h] that is a function, mapping [g] and then [f]
    wraps the function that runs [f] first, then [g], then [h]: each [map]
    puts its function in front of the ones already there. *)
Theorem map_map_on_function (m : loc) (h : pyfun) (f g : Value) (w : World) :
  heap w !! m = Some (VFun h) ->
  exists l w' p,
    (let* inner := map m g in map inner f) w = Ret l w' /\
    heap w' !! l = Some (VFun p) /\
    forall x, p x = (let? y := call f x in let? z := call g y in h z).
Proof.
  intros Hm.
  step (map_function_payload m h g w Hm).
  match goal with
  | |- context [stored w ?q] => set (inner := q)
  end.
  pose proof (lookup_stored_new w inner) as Hi. unfold inner in Hi.
  eexists _, _, _. split; [|split].
  - apply (map_function_payload _ _ f _ Hi).
  - apply lookup_stored_new.
  - reflexivity.
Qed.

Lemma map_map_on_function_witness :
  heap sample_world !! 1%nat = Some (VFun add_one) /\
  exists l w' p,
    (let* inner := map 1%nat (VFun double) in map inner (VFun double))
      sample_world = Ret l w' /\
    heap w' !! l = Some (VFun p) /\
    forall x, p x = (let? y := call (VFun double) x in
                     let? z := call (VFun double) y in add_one z).
Proof.
  split; [reflexivity|].
  apply (map_map_on_function 1%nat add_one (VFun double) (VFun double)
           sample_world).
  reflexivity.
Defined.

(** ** More of [==] *)

Lemma eq_other_not_container (fuel : nat) (a : loc) (va other : Value)
    (w : World) :
  heap w !! a = Some va ->
  instance_of other Identity = None ->
  Identity___eq__ (S fuel) a other w = Raise AttributeError.
Proof.
  intros Ha Ho. cbn [Identity___eq__].
  pose proof (getattr_value_stored _ _ _ Ha) as Ga.
  assert (Go : forall w1, getattr_value other w1 = Raise AttributeError).
  { intros w1. destruct other as [[s | l] | f]; try reflexivity. discriminate. }
  destruct (callable va) eqn:Hc.
  - unfold then_ at 1. unfold then_ at 1. rewrite Ga, Hc.
    unfold then_ at 1. rewrite Go. reflexivity.
  - rewrite (then_Ret _ _ w w false).
    2:{ step Ga. rewrite Hc. reflexivity. }
    step Ga. unfold then_. rewrite Go. reflexivity.
Qed.

(** X11.  A container compared with something that is no container fails
    with [AttributeError], since [__eq__] reads [other.value]; so does, in
    both directions, a container that holds a container compared with one
    that holds a scalar. *)
Theorem eq_with_non_container_raises (fuel : nat) (a b c : loc)
    (vc : Value) (s : Scalar) (w : World) :
  heap w !! a = Some (VRef c) ->
  heap w !! c = Some vc ->
  heap w !! b = Some (VScalar s) ->
  Identity___eq__ (S fuel) c (VScalar s) w = Raise AttributeError /\
  Identity___eq__ (S (S fuel)) a (VRef b) w = Raise AttributeError /\
  Identity___eq__ (S (S fuel)) b (VRef a) w = Raise AttributeError.
Proof.
  intros Ha Hc Hb.
  pose proof (eq_other_not_container fuel c vc (VScalar s) w Hc eq_refl) as H.
  split; [exact H|]. split.
  - rewrite (Identity_eq_unfold (S fuel) a b _ _ w Ha Hb). exact H.
  - rewrite (Identity_eq_unfold (S fuel) b a _ _ w Hb Ha). exact H.
Qed.

Lemma eq_with_non_container_raises_witness :
  heap nested_world !! 1%nat = Some (VRef 0%nat) /\
  heap nested_world !! 0%nat = Some (VInt 7) /\
  heap nested_world !! 2%nat = Some (VScalar (SInt 7)) /\
  Identity___eq__ 1 0%nat (VScalar (SInt 7)) nested_world
  = Raise AttributeError /\
  Identity___eq__ 2 1%nat (VRef 2%nat) nested_world = Raise AttributeError /\
  Identity___eq__ 2 2%nat (VRef 1%nat) nested_world = Raise AttributeError.
Proof.
  split; [reflexivity|]. split; [reflexivity|]. split; [reflexivity|].
  apply (eq_with_non_container_raises 0 1%nat 2%nat 0%nat (VInt 7) (SInt 7)
           nested_world); reflexivity.
Defined.

Lemma SFeqb_self (x : float) : SFeqb x x = negb (is_nan x).
Proof.
  destruct (is_nan x) eqn:Hx.
  - destruct x; try discriminate. reflexivity.
  - apply SFeqb_refl, Hx.
Qed.

Lemma scalar_eq_self (s : Scalar) : scalar_eq s s = nan_free s.
Proof.
  destruct s; unfold scalar_eq; simpl;
    rewrite ?Z.eqb_refl, ?String.eqb_refl, ?SFeqb_self; simpl;
    rewrite ?andb_true_r; reflexivity.
Qed.

(** X12.  A container with a scalar payload equals itself exactly when the
    payload holds no NaN: [==] on [Identity(nan)] and itself is false. *)
Theorem eq_self_iff_nan_free (fuel : nat) (m : loc) (s : Scalar) (w : World) :
  heap w !! m = Some (VScalar s) ->
  Identity___eq__ (S fuel) m (VRef m) w = Ret (nan_free s) w.
Proof.
  intros Hm. rewrite (Identity_eq_unfold fuel m m _ _ w Hm Hm).
  simpl. unfold py_eq, ret. simpl. rewrite scalar_eq_self. reflexivity.
Qed.

Lemma eq_self_iff_nan_free_witness :
  heap sample_world !! 2%nat = Some (VScalar SNone) /\
  Identity___eq__ 1 2%nat (VRef 2%nat) sample_world
  = Ret (nan_free SNone) sample_world.
Proof.
  split; [reflexivity|].
  apply (eq_self_iff_nan_free 0 2%nat SNone sample_world). reflexivity.
Defined.

Lemma SFeqb_sym (x y : float) : SFeqb x y = SFeqb y x.
Proof.
  unfold SFeqb, SFcompare.
  destruct x as [s | s | | s m e], y as [t | t | | t n f];
    try reflexivity; try (destruct s, t; reflexivity);
    try (destruct s; reflexivity); try (destruct t; reflexivity).
  rewrite (Z.compare_antisym e f).
  replace (Pos.compare_cont Eq n m) with (CompOpp (Pos.compare_cont Eq m n))
    by (rewrite Pos.compare_cont_antisym; reflexivity).
  destruct s, t, (e ?= f), (Pos.compare_cont Eq m n); reflexivity.
Qed.

Lemma real_eq_sym (a b : real) : real_eq a b = real_eq b a.
Proof.
  destruct a, b; simpl; try reflexivity.
  - apply Z.eqb_sym.
  - apply SFeqb_sym.
Qed.

Lemma scalar_eq_sym (a b : Scalar) : scalar_eq a b = scalar_eq b a.
Proof.
  unfold scalar_eq.
  destruct (numeric a) as [[ra ia] |] eqn:Na, (numeric b) as [[rb ib] |] eqn:Nb;
    try reflexivity.
  - rewrite (real_eq_sym ra rb), (SFeqb_sym ia ib). reflexivity.
  - destruct a, b; try discriminate; try reflexivity; apply String.eqb_sym.
Qed.

(** X13.  On scalar payloads [==] is symmetric: [a == b] and [b == a] give
    the same answer and leave the same state, also across [bool], [int],
    [float] and [complex]. *)
Theorem eq_scalars_symmetric (fuel : nat) (a b : loc) (x y : Scalar)
    (w : World) :
  heap w !! a = Some (VScalar x) ->
  heap w !! b = Some (VScalar y) ->
  Identity___eq__ (S fuel) a (VRef b) w = Identity___eq__ (S fuel) b (VRef a) w.
Proof.
  intros Ha Hb.
  rewrite (Identity_eq_unfold fuel a b _ _ w Ha Hb).
  rewrite (Identity_eq_unfold fuel b a _ _ w Hb Ha).
  simpl. unfold py_eq, ret. simpl. rewrite (scalar_eq_sym x y). reflexivity.
Qed.

Lemma eq_scalars_symmetric_witness :
  heap sample_world !! 0%nat = Some (VScalar (SInt 5)) /\
  heap sample_world !! 2%nat = Some (VScalar SNone) /\
  Identity___eq__ 1 0%nat (VRef 2%nat) sample_world
  = Identity___eq__ 1 2%nat (VRef 0%nat) sample_world.
Proof.
  split; [reflexivity|]. split; [reflexivity|].
  apply (eq_scalars_symmetric 0 0%nat 2%nat (SInt 5) SNone sample_world);
    reflexivity.
Defined.

(** ** More of the determinizer *)

Lemma scrubbed_nan (pure : Value -> Py loc) (made : loc) (s : Scalar)
    (w : World) :
  nan_free s = false -> scrubbed pure made (VScalar s) w = pure VNone w.
Proof.
  destruct s as [n | b | t | t | y | re im |]; simpl; try discriminate.
  - destruct (is_nan y); [reflexivity | discriminate].
  - destruct (is_nan im), (is_nan re); try reflexivity; discriminate.
Qed.

Lemma modify_nan_run (function : Atom -> Py Atom) (cache : lru_cache loc)
    (x : Atom) (s : Scalar) (w w1 : World) :
  hashable x = true ->
  cache_get cache x = None ->
  function x w = Ret (AScalar s) w1 ->
  nan_free s = false ->
  _modify function (Identity_unit Identity) cache x w
  = Ret (length (heap (stored w1 (VScalar s))),
         cache ++ [(x, length (heap (stored w1 (VScalar s))))])
        (stored (stored w1 (VScalar s)) VNone).
Proof.
  intros Hx Hget Hf Hnan.
  rewrite (modify_miss function (Identity_unit Identity) cache x (AScalar s)
             (length (heap w1)) (VScalar s) w w1 (stored w1 (VScalar s))
             Hx Hget Hf eq_refl (lookup_stored_new w1 (VScalar s))).
  rewrite (scrubbed_nan _ _ s _ Hnan). reflexivity.
Qed.



(** X15.  The containers that two wrappers return for raw functions that
    give NaN are equal under [==], where the two NaN themselves are not:
    this is what the scrubbing is for. *)
Theorem scrubbed_results_are_equal (fuel : nat) (f g : Atom -> Py Atom)
    (x y : Atom) (s t : Scalar) (w : World) :
  hashable x = true ->
  hashable y = true ->
  (forall w0, f x w0 = Ret (AScalar s) w0) ->
  (forall w0, g y w0 = Ret (AScalar t) w0) ->
  nan_free s = false ->
  nan_free t = false ->
  exists w',
    (let* a := _modify f (Identity_unit Identity) [] x in
     let* b := _modify g (Identity_unit Identity) [] y in
     Identity___eq__ (S fuel) (fst a) (VRef (fst b))) w
    = Ret true w'.
Proof.
  intros Hx Hy Hf Hg Hs Ht.
  step (modify_nan_run f [] x s w w Hx eq_refl (Hf w) Hs).
  match goal with
  | |- context [then_ _ _ ?w1] =>
      step (modify_nan_run g [] y t w1 w1 Hy eq_refl (Hg w1) Ht)
  end.
  cbn [fst].
  eapply (eq_same_payload fuel _ _ VNone); [| apply lookup_stored_new | reflexivity].
  apply lookup_stored_old, lookup_stored_old, lookup_stored_new.
Qed.

Lemma scrubbed_results_are_equal_witness :
  hashable (AScalar (SInt 0)) = true /\
  hashable (AScalar (SInt 1)) = true /\
  (forall w0, returns_nan (AScalar (SInt 0)) w0
              = Ret (AScalar (SFloat S754_nan)) w0) /\
  (forall w0, returns_nan (AScalar (SInt 1)) w0
              = Ret (AScalar (SFloat S754_nan)) w0) /\
  nan_free (SFloat S754_nan) = false /\
  exists w',
    (let* a := _modify returns_nan (Identity_unit Identity) []
                       (AScalar (SInt 0)) in
     let* b := _modify returns_nan (Identity_unit Identity) []
                       (AScalar (SInt 1)) in
     Identity___eq__ 1 (fst a) (VRef (fst b))) fresh_world
    = Ret true w'.
Proof.
  split; [reflexivity|]. split; [reflexivity|].
  split; [intros; reflexivity|]. split; [intros; reflexivity|].
  split; [reflexivity|].
  apply (scrubbed_results_are_equal 0 returns_nan returns_nan
           (AScalar (SInt 0)) (AScalar (SInt 1))
           (SFloat S754_nan) (SFloat S754_nan) fresh_world);
    try reflexivity; intros; reflexivity.
Defined.



(** X17.  When the raw function returns, for an argument that has no entry
    yet, a scalar that is no NaN and, if it is an int, one that a double can
    hold, the wrapper returns the one container that [pure] made, which holds
    that scalar, and stores it under the argument. *)
Theorem modify_keeps_result (function : Atom -> Py Atom)
    (cache : lru_cache loc) (x : Atom) (s : Scalar) (w w1 : World) :
  hashable x = true ->
  cache_get cache x = None ->
  function x w = Ret (AScalar s) w1 ->
  nan_free s = true ->
  match s with
  | SInt n => exists y, float_of_int n = Ok y
  | _ => True
  end ->
  _modify function (Identity_unit Identity) cache x w
  = Ret (length (heap w1), cache ++ [(x, length (heap w1))])
        (stored w1 (VScalar s)).
Proof.
  intros Hx Hget Hf Hnan Hint.
  rewrite (modify_miss function (Identity_unit Identity) cache x (AScalar s)
             (length (heap w1)) (VScalar s) w w1 (stored w1 (VScalar s))
             Hx Hget Hf eq_refl (lookup_stored_new w1 (VScalar s))).
  destruct s as [n | b | t | t | y | re im |]; simpl in *; try reflexivity.
  - destruct Hint as [y Hy]. rewrite Hy. reflexivity.
  - destruct (is_nan y); [discriminate | reflexivity].
  - destruct (is_nan im), (is_nan re); try discriminate; reflexivity.
Qed.

Lemma modify_keeps_result_witness :
  hashable (AScalar (SStr "k")) = true /\
  cache_get ([] : lru_cache loc) (AScalar (SStr "k")) = None /\
  lift (double (AScalar (SStr "k"))) fresh_world
  = Ret (AScalar (SStr "kk")) fresh_world /\
  nan_free (SStr "kk") = true /\
  _modify (fun x => lift (double x)) (Identity_unit Identity) []
          (AScalar (SStr "k")) fresh_world
  = Ret (length (heap fresh_world),
         [] ++ [(AScalar (SStr "k"), length (heap fresh_world))])
        (stored fresh_world (VScalar (SStr "kk"))).
Proof.
  split; [reflexivity|]. split; [reflexivity|]. split; [reflexivity|].
  split; [reflexivity|].
  apply (modify_keeps_result (fun x => lift (double x)) []
           (AScalar (SStr "k")) (SStr "kk") fresh_world fresh_world);
    first [reflexivity | exact I].
Defined.

(** ** [compose] *)

(** X18.  [compose] is associative and has [identity] as unit on both
    sides, exceptions included: the composed functions return the same value
    or raise the same exception at every argument. *)
Theorem compose_assoc_identity (f g h : Value) (x : Atom) :
  compose (VFun (compose f g)) h x = compose f (VFun (compose g h)) x /\
  compose identity_fn f x = call f x /\
  compose f identity_fn x = call f x.
Proof.
  unfold compose, identity_fn, identity. simpl. repeat split.
  - destruct (call h x); reflexivity.
  - destruct (call f x); reflexivity.
Qed.

End top_shelf.
